(** * VIN decoder: a shallow embedding of [streamlit_vin_decoder.py]

    The program is a single Streamlit page.  [main] reads two text fields
    and a button; on a click it hands the normalised VIN to [get_vin],
    which validates its shape, calls [nhtsa_api_call.get_vehicle_info]
    and renders the answer.

    Python strings are sequences of Unicode code points, so [str] is a
    list of code points ([N]) and [len] counts code points.  Calls into
    Streamlit and into the lookup module are recorded, in program order,
    in a trace of events; an exception is carried next to the trace until
    a handler catches it.

    What lies outside the file is a parameter: the lookup (a function from
    the VIN to three optional fields or an exception), [str.capitalize],
    the upper-case table above ASCII and the two image paths.  Streamlit's
    calls are taken to draw and return. *)

From Stdlib Require Import List Arith NArith Bool Lia String Ascii.
Import ListNotations.

Local Open Scope N_scope.

(** ** Python strings *)

Module PyStr.

Definition char := N.
Definition str := list char.

(** A literal of the source whose characters are all ASCII. *)
Definition lit (s : string) : str :=
  List.map N_of_ascii (list_ascii_of_string s).

(** The code point of a one-character ASCII literal. *)
Definition ord (a : ascii) : char := N_of_ascii a.

(** [len(s)] *)
Definition len (s : str) : N := N.of_nat (List.length s).

(** Truth value of a string in a condition: [if s:]. *)
Definition truthy (s : str) : bool :=
  match s with [] => false | _ :: _ => true end.

(** [s * n] for a string [s]. *)
Fixpoint repeat_str (s : str) (n : nat) : str :=
  match n with O => [] | S k => s ++ repeat_str s k end.

(** [c.isspace()] for one code point, as [str.strip()] without argument
    uses it: the code points of bidirectional type WS, B or S and of
    category Zs. *)
Definition isspace (c : char) : bool :=
  ((9 <=? c) && (c <=? 13))
  || ((28 <=? c) && (c <=? 32))
  || (c =? 133) || (c =? 160) || (c =? 5760)
  || ((8192 <=? c) && (c <=? 8202))
  || (c =? 8232) || (c =? 8233) || (c =? 8239) || (c =? 8287)
  || (c =? 12288).

(** [s.lstrip()] *)
Fixpoint lstrip (s : str) : str :=
  match s with
  | [] => []
  | c :: r => if isspace c then lstrip r else s
  end.

(** [s.rstrip()]: drop the longest suffix of white space. *)
Fixpoint rstrip (s : str) : str :=
  match s with
  | [] => []
  | c :: r =>
      match rstrip r with
      | [] => if isspace c then [] else [c]
      | r' => c :: r'
      end
  end.

(** [s.strip()] *)
Definition strip (s : str) : str := rstrip (lstrip s).

Section Upper.

(** The full upper-case mapping of the Unicode character database for
    the code points above ASCII (one code point may map to several). *)
Variable unicode_upper : char -> str.

Definition upper_char (c : char) : str :=
  if (ord "a" <=? c) && (c <=? ord "z") then [c - 32]
  else if c <? 128 then [c]
  else unicode_upper c.

(** [s.upper()] *)
Definition upper (s : str) : str := List.flat_map upper_char s.

End Upper.

End PyStr.

Import PyStr.

(** ** The regular expression of [get_vin]

    [re.match(r'^[A-HJ-NPR-Z0-9]{17}$', vin)] is the only use of [re].  The
    pattern is kept as data: an anchored character class repeated a fixed
    number of times, then [$]. *)

Module Re.

(** A character class is a list of inclusive ranges; a single character
    is the range from itself to itself. *)
Definition char_class := list (char * char).

Definition in_range (c : char) (r : char * char) : bool :=
  (fst r <=? c) && (c <=? snd r).

Definition in_class (cls : char_class) (c : char) : bool :=
  List.existsb (in_range c) cls.

(** [[cls]{n}]: exactly [n] characters of the class; what is left of the
    subject is returned. *)
Fixpoint match_repeat (cls : char_class) (n : nat) (s : str) : option str :=
  match n with
  | O => Some s
  | S k =>
      match s with
      | [] => None
      | c :: r => if in_class cls c then match_repeat cls k r else None
      end
  end.

(** [$] without [re.MULTILINE]: the end of the subject, or just before a
    line feed that is its last character. *)
Definition at_dollar (rest : str) : bool :=
  match rest with
  | [] => true
  | [c] => c =? 10
  | _ => false
  end.

(** [re.match('^[cls]{n}$', s)] as a truth value ([None] is false, a
    match object is true).  [re.match] matches at the start, where [^]
    holds. *)
Definition match_anchored (cls : char_class) (n : nat) (s : str) : bool :=
  match match_repeat cls n s with
  | Some rest => at_dollar rest
  | None => false
  end.

End Re.

(** [[A-HJ-NPR-Z0-9]] *)
Definition VIN_CLASS : Re.char_class :=
  [ (ord "A", ord "H"); (ord "J", ord "N"); (ord "P", ord "P");
    (ord "R", ord "Z"); (ord "0", ord "9") ].

(** [re.match(r'^[A-HJ-NPR-Z0-9]{17}$', vin)] *)
Definition re_match_vin (vin : str) : bool :=
  Re.match_anchored VIN_CLASS 17 vin.

(** ** Rendering and the lookup as events *)

(** Where an element is drawn. *)
Inductive container :=
| Page                      (* a call on [st] itself *)
| StatusArea                (* the placeholder returned by [st.empty()] *)
| Col1                      (* first column of [st.columns([1, 1])] *)
| Col2                      (* second column *)
| Expander (label : str).   (* body of [with st.expander(label)] *)

Inductive element :=
| Empty                                           (* st.empty() *)
| Columns (spec : list N)                         (* st.columns(spec) *)
| Error (body : str)                              (* .error(body) *)
| Info (body : str)                               (* .info(body) *)
| Warning (body : str)                            (* .warning(body) *)
| Success (body : str)                            (* .success(body) *)
| Image (file : str) (use_container_width : bool) (* st.image(file, ...) *)
| Write (body : str)                              (* st.write(body) *)
| Markdown (body : str) (unsafe_allow_html : bool)
| Subheader (body : str)
| OpenExpander (label : str)                      (* st.expander(label) *)
| TextInput (label : str) (key : option str) (max_chars : option N)
| Button (label : str) (use_container_width : bool).

Inductive event :=
| Render (c : container) (e : element)
| Lookup (vin : str).       (* nhtsa_api_call.get_vehicle_info(vin) *)

Definition trace := list event.

(** An exception object.  The lookup's failures are instances of
    [Exception], which is what [except Exception as e] catches; [exn_str]
    is [str(e)], the text an f-string puts in place of [{e}].  The
    system-exiting exceptions outside [Exception] ([KeyboardInterrupt],
    [SystemExit]) are no failure of the lookup and are not modelled. *)
Record exn := { exn_str : str }.

(** What the statement [year, make, model = get_vehicle_info(vin)] can
    yield: three fields, each a string or [None], or an exception. *)
Inductive outcome :=
| Returns (year make model : option str)
| Raises (e : exn).

(** ** A trace-and-exception monad *)

Inductive completion (A : Type) :=
| Done (a : A)
| Raised (e : exn).
Arguments Done {A} a.
Arguments Raised {A} e.

Definition UI (A : Type) : Type := trace * completion A.

Definition ret {A} (a : A) : UI A := ([], Done a).

Definition bind {A B} (m : UI A) (f : A -> UI B) : UI B :=
  match m with
  | (t, Done a) => let (t', r) := f a in (t ++ t', r)
  | (t, Raised e) => (t, Raised e)
  end.

Definition emit (ev : event) : UI unit := ([ev], Done tt).

Definition raise {A} (e : exn) : UI A := ([], Raised e).

(** [try: body / except Exception as e: handler e] *)
Definition try_except {A} (body : UI A) (handler : exn -> UI A) : UI A :=
  match body with
  | (t, Done a) => (t, Done a)
  | (t, Raised e) => let (t', r) := handler e in (t ++ t', r)
  end.

Declare Scope ui_scope.
Delimit Scope ui_scope with ui.
Notation "x <- c1 ;; c2" := (bind c1 (fun x => c2))
  (at level 61, c1 at next level, right associativity) : ui_scope.
Notation "' pat <- c1 ;; c2" :=
  (bind c1 (fun x => match x with pat => c2 end))
  (at level 61, pat pattern, c1 at next level, right associativity) : ui_scope.
Notation "c1 ;; c2" := (bind c1 (fun _ => c2))
  (at level 61, right associativity) : ui_scope.

(** The trace a run leaves, and whether it came back without an exception. *)
Definition events {A} (m : UI A) : trace := fst m.

Definition returns_normally {A} (m : UI A) : Prop :=
  match snd m with Done _ => True | Raised _ => False end.

Local Open Scope ui_scope.

(** ** Streamlit calls *)

Module st.

Definition render (c : container) (e : element) : UI unit :=
  emit (Render c e).

(** [st.empty()] draws a placeholder and returns it. *)
Definition empty : UI container :=
  render Page Empty ;; ret StatusArea.

(** [st.columns(spec)] with two entries draws and returns two columns. *)
Definition columns (spec : list N) : UI (container * container) :=
  render Page (Columns spec) ;; ret (Col1, Col2).

(** [st.expander(label)] draws the expander and returns its body. *)
Definition expander (label : str) : UI container :=
  render Page (OpenExpander label) ;; ret (Expander label).

Definition error (c : container) (body : str) := render c (Error body).
Definition info (c : container) (body : str) := render c (Info body).
Definition warning (c : container) (body : str) := render c (Warning body).
Definition success (c : container) (body : str) := render c (Success body).
Definition write (c : container) (body : str) := render c (Write body).
Definition subheader (c : container) (body : str) := render c (Subheader body).

Definition image (c : container) (file : str) (use_container_width : bool) :=
  render c (Image file use_container_width).

Definition markdown (c : container) (body : str) (unsafe_allow_html : bool) :=
  render c (Markdown body unsafe_allow_html).

(** [st.text_input(label, key=..., max_chars=...)] draws the field and
    returns its current content, [value]. *)
Definition text_input (label : str) (key : option str) (max_chars : option N)
    (value : str) : UI str :=
  render Page (TextInput label key max_chars) ;; ret value.

(** [st.button(label, use_container_width=...)] draws the button and
    returns whether it was clicked in this run. *)
Definition button (label : str) (use_container_width clicked : bool) : UI bool :=
  render Page (Button label use_container_width) ;; ret clicked.

End st.

(** ** Python values of the lookup's fields *)

(** Truth value of a field: [None] and the empty string are false. *)
Definition truth (v : option str) : bool :=
  match v with
  | None => false
  | Some s => truthy s
  end.

(** [v is None] *)
Definition is_None (v : option str) : bool :=
  match v with None => true | Some _ => false end.

(** What an f-string puts in place of [{v}]. *)
Definition format_value (v : option str) : str :=
  match v with
  | None => lit "None"
  | Some s => s
  end.

(** The built-ins [all] and [any] on a list of truth values. *)
Definition all (l : list bool) : bool := List.forallb (fun b => b) l.
Definition any (l : list bool) : bool := List.existsb (fun b => b) l.

(** ** The messages of the source *)

Definition MSG_LENGTH : str := lit "VIN must be exactly 17 characters long.".

Definition MSG_ALPHABET : str :=
  lit "VIN must be alpha-numeric and cannot include letters I, O, Q.".

Definition MSG_DECODING : str := lit "Decoding VIN...".

Definition MSG_DECODED : str := lit "VIN decoded successfully!".

Definition MSG_INCOMPLETE (who : str) : str :=
  lit "Incomplete vehicle data returned. " ++ who
  ++ lit ", please verify the VIN and try again.".

Definition MSG_FAILED (e : exn) : str :=
  lit "An error occurred while decoding the VIN: " ++ exn_str e.

Definition MSG_DETAILS (who : str) : str :=
  lit "Below are the vehicle details, " ++ who ++ lit ":".

(** U+1F50D, then the text. *)
Definition MSG_VEHICLE_INFORMATION : str :=
  128269 :: lit " Vehicle Information".

Definition MSG_MAKE (make : option str) : str :=
  lit "**Make:** " ++ format_value make.

Definition MSG_MODEL (model : option str) : str :=
  lit "**Model:** " ++ format_value model.

Definition MSG_YEAR (year : option str) : str :=
  lit "**Model Year:** " ++ format_value year.

(** U+274C, then the text. *)
Definition MSG_NO_VIN (who : str) : str :=
  10060 :: lit " Please enter a VIN before fetching the vehicle information, "
  ++ who ++ lit ".".

(** U+1F44B, then the text. *)
Definition MSG_HELLO (who : str) : str :=
  128075 :: lit " Hello, " ++ who ++ lit "!".

Definition MSG_TITLE : str :=
  lit "<h1 style='text-align: center;'>Vehicle VIN Decoder</h1>".

(** The welcome line; U+1F697 before the text. *)
Definition MSG_WELCOME : str :=
  lit "<h5 style='text-align: center;'>" ++ [128663]
  ++ lit " Welcome to the Car Dealership VIN Lookup!</h5>".

(** U+2139 U+FE0F, then the text. *)
Definition MSG_ABOUT_LABEL : str := 8505 :: 65039 :: lit " About this app".

Definition MSG_ABOUT : str :=
  lit "This app is designed to help car dealerships and automotive professionals effortlessly decode Vehicle Identification Numbers (VINs) to retrieve key vehicle details such as model,make and model year. By simply entering a 17-character VIN, users can access verified vehicle information. The data is fetched in real-time from the National Highway Traffic Safety Administration (NHTSA). Whether you're validating trade-ins, checking vehicle specs, or streamlining inventory intake, this tool delivers quick and reliable insights.".

Definition MSG_ENTER : str :=
  lit "Enter a **17-character VIN** below to decode the vehicle info.".

(** The footer; U+00A9 before the year. *)
Definition MSG_FOOTER : str :=
  lit "<p style='text-align: center; font-size: 14px;'>" ++ [169]
  ++ lit " 2025 Car Dealership VIN Lookup".

(** ** The program *)

Section App.

(** [str.capitalize], used only on the display name. *)
Variable capitalize : str -> str.

(** The upper-case table of [str.upper] above ASCII. *)
Variable unicode_upper : char -> str.

(** The two image paths computed from [BASE_DIR] when the module loads. *)
Variables logo_img_file car_img_file : str.

(** [nhtsa_api_call.get_vehicle_info]: the external lookup. *)
Variable get_vehicle_info : str -> outcome.

(** The call of the lookup, followed by the unpacking of its result. *)
Definition call_get_vehicle_info (vin : str)
    : UI (option str * option str * option str) :=
  emit (Lookup vin) ;;
  match get_vehicle_info vin with
  | Returns year make model => ret (year, make, model)
  | Raises e => raise e
  end.

Definition get_vin (vin username : str) : UI unit :=
  status_area <- st.empty ;;
  '(col1, col2) <- st.columns [1; 1] ;;
  if negb (len vin =? 17) then
    st.error status_area MSG_LENGTH
  else if negb (re_match_vin vin) then
    st.error status_area MSG_ALPHABET
  else
    st.info status_area MSG_DECODING ;;
    try_except
      ('(year, make, model) <- call_get_vehicle_info vin ;;
       if negb (all (List.map truth [year; make; model]))
          || any (List.map is_None [year; make; model])
       then
         st.warning status_area (MSG_INCOMPLETE (capitalize username))
       else
         st.success status_area MSG_DECODED ;;
         st.image col1 car_img_file true ;;
         st.write col2 (MSG_DETAILS (capitalize username)) ;;
         st.write col2 MSG_VEHICLE_INFORMATION ;;
         st.write col2 (MSG_MAKE make) ;;
         st.write col2 (MSG_MODEL model) ;;
         st.write col2 (MSG_YEAR year))
      (fun e => st.error status_area (MSG_FAILED e)).

(** [main], given what the two text fields hold and whether the button
    was clicked in this run. *)
Definition main (name_field vin_field : str) (clicked : bool) : UI unit :=
  st.markdown Page MSG_TITLE true ;;
  st.write Page (repeat_str (lit "*") 50) ;;
  st.markdown Page MSG_WELCOME true ;;
  st.image Page logo_img_file true ;;
  st.markdown Page (lit "---") false ;;
  about <- st.expander MSG_ABOUT_LABEL ;;
  st.write about MSG_ABOUT ;;
  st.write Page (repeat_str (lit "*") 80) ;;
  st.subheader Page (lit "UserName") ;;
  name <- st.text_input (lit "Enter your name") (Some (lit "username")) None
            name_field ;;
  (if truthy name then
     st.success Page (MSG_HELLO (capitalize name)) ;;
     st.markdown Page (lit "---") false ;;
     st.markdown Page MSG_ENTER false
   else ret tt) ;;
  raw <- st.text_input (lit "Enter VIN:") None (Some 17) vin_field ;;
  let vin := upper unicode_upper (strip raw) in
  pressed <- st.button (lit "Decode VIN") true clicked ;;
  (if pressed then
     if truthy vin then get_vin vin name
     else st.error Page (MSG_NO_VIN (capitalize name))
   else ret tt) ;;
  st.markdown Page (lit "___") false ;;
  st.markdown Page MSG_FOOTER true.

End App.

(** ** Reading a trace *)

Definition is_lookup (ev : event) : bool :=
  match ev with Lookup _ => true | Render _ _ => false end.

(** How many times the lookup was called. *)
Definition lookup_calls (t : trace) : nat :=
  List.length (List.filter is_lookup t).

(** What was written to the status placeholder, oldest first. *)
Definition status_messages (t : trace) : list element :=
  List.flat_map
    (fun ev => match ev with Render StatusArea e => [e] | _ => [] end) t.

(** The placeholder holds one element: each write replaces the one
    before, so the page ends up showing the last. *)
Definition status_shown (t : trace) : option element :=
  List.last (List.map Some (status_messages t)) None.

(** An element drawn in one of the two columns, where the picture and the
    vehicle fields go. *)
Definition in_columns (ev : event) : bool :=
  match ev with
  | Render Col1 _ | Render Col2 _ => true
  | _ => false
  end.

Definition renders_details (t : trace) : bool := List.existsb in_columns t.

(** One of the two format errors is on the trace. *)
Definition format_error_shown (t : trace) : Prop :=
  In (Render StatusArea (Error MSG_LENGTH)) t
  \/ In (Render StatusArea (Error MSG_ALPHABET)) t.

(** What [get_vin] draws before it looks at the VIN. *)
Definition GET_VIN_SETUP : trace :=
  [Render Page Empty; Render Page (Columns [1; 1])].

(** What [get_vin] draws for a lookup that returned every field. *)
Definition DETAILS (car_img_file who : str) (year make model : option str)
    : trace :=
  [ Render StatusArea (Success MSG_DECODED);
    Render Col1 (Image car_img_file true);
    Render Col2 (Write (MSG_DETAILS who));
    Render Col2 (Write MSG_VEHICLE_INFORMATION);
    Render Col2 (Write (MSG_MAKE make));
    Render Col2 (Write (MSG_MODEL model));
    Render Col2 (Write (MSG_YEAR year)) ].

(** What [get_vin] draws for a lookup that left a field out. *)
Definition INCOMPLETE (who : str) : trace :=
  [ Render StatusArea (Warning (MSG_INCOMPLETE who)) ].

(** What [get_vin] draws for a lookup that raised [e]. *)
Definition FAILED (e : exn) : trace :=
  [ Render StatusArea (Error (MSG_FAILED e)) ].

(** What [get_vin] draws once the lookup has come back with [o]. *)
Definition ANSWER (car_img_file who : str) (o : outcome) : trace :=
  match o with
  | Returns year make model =>
      if truth year && truth make && truth model
      then DETAILS car_img_file who year make model
      else INCOMPLETE who
  | Raises e => FAILED e
  end.

(** What [get_vin] draws once the VIN has passed validation, up to and
    including the call of the lookup. *)
Definition ACCEPTED (vin : str) : trace :=
  GET_VIN_SETUP ++ [ Render StatusArea (Info MSG_DECODING); Lookup vin ].

(** What [main] draws before the button's branch, and after it. *)
Definition MAIN_HEAD (capitalize : str -> str) (logo_img_file name : str)
    : trace :=
  [ Render Page (Markdown MSG_TITLE true);
    Render Page (Write (repeat_str (lit "*") 50));
    Render Page (Markdown MSG_WELCOME true);
    Render Page (Image logo_img_file true);
    Render Page (Markdown (lit "---") false);
    Render Page (OpenExpander MSG_ABOUT_LABEL);
    Render (Expander MSG_ABOUT_LABEL) (Write MSG_ABOUT);
    Render Page (Write (repeat_str (lit "*") 80));
    Render Page (Subheader (lit "UserName"));
    Render Page (TextInput (lit "Enter your name") (Some (lit "username")) None) ]
  ++ (if truthy name then
        [ Render Page (Success (MSG_HELLO (capitalize name)));
          Render Page (Markdown (lit "---") false);
          Render Page (Markdown MSG_ENTER false) ]
      else [])
  ++ [ Render Page (TextInput (lit "Enter VIN:") None (Some 17));
       Render Page (Button (lit "Decode VIN") true) ].

Definition MAIN_FOOT : trace :=
  [ Render Page (Markdown (lit "___") false);
    Render Page (Markdown MSG_FOOTER true) ].

(** What [main] draws between the button and the footer: nothing without a
    click; on a click, what [get_vin] draws for the normalised field, or the
    error that asks for a VIN when that is empty. *)
Definition MAIN_BRANCH (capitalize : str -> str) (unicode_upper : char -> str)
    (car_img_file : str) (get_vehicle_info : str -> outcome)
    (name raw : str) (clicked : bool) : trace :=
  if clicked then
    if truthy (upper unicode_upper (strip raw))
    then events (get_vin capitalize car_img_file get_vehicle_info
                   (upper unicode_upper (strip raw)) name)
    else [Render Page (Error (MSG_NO_VIN (capitalize name)))]
  else [].

(** ** The words of the specification *)

(** The allowed alphabet: A-H, J-N, P, R-Z and 0-9. *)
Definition ALPHABET : str := lit "ABCDEFGHJKLMNPRSTUVWXYZ0123456789".

Definition allowed (c : char) : Prop := In c ALPHABET.

(** A VIN: 17 characters, each of the allowed alphabet. *)
Definition well_formed_vin (v : str) : Prop :=
  List.length v = 17%nat /\ Forall allowed v.

(** A field of the lookup is present when it is a non-empty string. *)
Definition present (v : option str) : Prop :=
  exists s, v = Some s /\ s <> [].

(** [c] is the character [d] up to letter case: [d] itself, or the small
    letter of the capital [d]. *)
Definition same_up_to_case (c d : char) : Prop :=
  c = d \/ (ord "A" <= d /\ d <= ord "Z" /\ c = d + 32).

(** An ASCII character that is no small letter. *)
Definition ascii_no_small (c : char) : Prop :=
  c < 128 /\ ~ (ord "a" <= c /\ c <= ord "z").

(** [raw] is the VIN [v] up to letter case, with white space around it. *)
Definition typed_as (raw v : str) : Prop :=
  exists before s after,
    raw = before ++ s ++ after
    /\ Forall (fun c => isspace c = true) before
    /\ Forall (fun c => isspace c = true) after
    /\ Forall2 same_up_to_case s v.

(** ** A sample environment, for running the program on examples *)

Module Sample.

(** [str.capitalize] on an ASCII name: first letter large, rest small. *)
Definition capitalize (s : str) : str :=
  match s with
  | [] => []
  | c :: r =>
      (if (ord "a" <=? c) && (c <=? ord "z") then c - 32 else c)
      :: List.map
           (fun d => if (ord "A" <=? d) && (d <=? ord "Z") then d + 32 else d)
           r
  end.

(** No code point above ASCII is changed. *)
Definition unicode_upper (c : char) : str := [c].

Definition logo_img_file : str := lit "/app/logo_image.png".
Definition car_img_file : str := lit "/app/car_image.png".

Definition accord : outcome :=
  Returns (Some (lit "2003")) (Some (lit "HONDA")) (Some (lit "Accord")).


Definition timeout : exn := {| exn_str := lit "Read timed out." |}.

Definition answers (o : outcome) : str -> outcome := fun _ => o.

Definition VIN : str := lit "1HGCM82633A004352".

(** [get_vin] and [main] in this environment, with a lookup that
    answers [o]. *)
Abbreviation decode o := (get_vin capitalize car_img_file (answers o)).

Abbreviation page o :=
  (main capitalize unicode_upper logo_img_file car_img_file (answers o)).

End Sample.

(** * Properties *)

(** ** The character class is the allowed alphabet *)

Definition in_alphabet (c : char) : bool := List.existsb (N.eqb c) ALPHABET.

Lemma in_alphabet_allowed (c : char) : in_alphabet c = true <-> allowed c.
Proof.
  unfold in_alphabet, allowed. rewrite existsb_exists. split.
  - intros [k [Hin Heq]]. apply N.eqb_eq in Heq. now subst k.
  - intros Hin. exists c. split; [assumption | apply N.eqb_refl].
Qed.

Lemma all_in_alphabet (s : str) :
  List.forallb in_alphabet s = true -> Forall allowed s.
Proof.
  rewrite forallb_forall, Forall_forall.
  intros H c Hc. apply in_alphabet_allowed, H, Hc.
Qed.

Lemma class_table_below_91 :
  List.forallb
    (fun c => Bool.eqb (Re.in_class VIN_CLASS c) (in_alphabet c))
    (List.map N.of_nat (List.seq 0 91)) = true.
Proof. vm_compute. reflexivity. Qed.

Lemma class_above_90 (c : char) : 90 < c -> Re.in_class VIN_CLASS c = false.
Proof.
  intros Hc. unfold Re.in_class, VIN_CLASS, Re.in_range, ord. cbn.
  repeat match goal with
         | |- context [?a <=? ?b] =>
             destruct (N.leb_spec a b); try lia; cbn
         end; reflexivity.
Qed.

Lemma alphabet_above_90 (c : char) : 90 < c -> in_alphabet c = false.
Proof.
  intros Hc. unfold in_alphabet.
  assert (Hall : Forall (fun k => k <= 90) ALPHABET).
  { unfold ALPHABET, lit. cbn. repeat constructor; lia. }
  induction Hall as [|k l Hk _ IH]; cbn; [reflexivity|].
  rewrite IH, orb_false_r. apply N.eqb_neq. lia.
Qed.

Lemma in_class_in_alphabet (c : char) :
  Re.in_class VIN_CLASS c = in_alphabet c.
Proof.
  destruct (N.lt_ge_cases 90 c) as [Hhi|Hlo].
  - now rewrite class_above_90, alphabet_above_90.
  - pose proof class_table_below_91 as Htab.
    rewrite forallb_forall in Htab.
    apply Bool.eqb_prop. apply Htab.
    rewrite <- (N2Nat.id c). apply in_map. apply in_seq. lia.
Qed.

Lemma in_class_allowed (c : char) :
  Re.in_class VIN_CLASS c = true <-> allowed c.
Proof. rewrite in_class_in_alphabet. apply in_alphabet_allowed. Qed.

(** ** The pattern on a subject of the right length *)

Lemma match_repeat_exact (cls : Re.char_class) (n : nat) :
  forall s : str,
    List.length s = n ->
    Re.match_repeat cls n s
    = if List.forallb (Re.in_class cls) s then Some [] else None.
Proof.
  induction n as [|n IH]; intros [|c r] Hlen; try discriminate; cbn.
  - reflexivity.
  - destruct (Re.in_class cls c); cbn; [|reflexivity].
    apply IH. now injection Hlen.
Qed.

Lemma re_match_vin_17 (s : str) :
  List.length s = 17%nat ->
  re_match_vin s = List.forallb (Re.in_class VIN_CLASS) s.
Proof.
  intros Hlen. unfold re_match_vin, Re.match_anchored.
  rewrite (match_repeat_exact _ _ _ Hlen).
  now destruct (forallb _ s).
Qed.

Lemma re_match_vin_allowed (s : str) :
  List.length s = 17%nat ->
  re_match_vin s = true <-> Forall allowed s.
Proof.
  intros Hlen. rewrite (re_match_vin_17 _ Hlen), forallb_forall, Forall_forall.
  split; intros H c Hc; apply in_class_allowed, H, Hc.
Qed.

Lemma len_is_17 (s : str) : (len s =? 17) = true <-> List.length s = 17%nat.
Proof. unfold len. rewrite N.eqb_eq. lia. Qed.

Lemma well_formed_vin_passes (v : str) :
  well_formed_vin v -> (len v =? 17) = true /\ re_match_vin v = true.
Proof.
  intros [Hlen Hall]. split.
  - now apply len_is_17.
  - now apply re_match_vin_allowed.
Qed.

(** [$] also holds before a final line feed, so the pattern alone lets a
    VIN followed by a line feed through; such a subject has 18 characters
    and is stopped by the length test, which [get_vin] makes first. *)
Example pattern_allows_a_final_line_feed :
  re_match_vin (Sample.VIN ++ [10]) = true
  /\ (len (Sample.VIN ++ [10]) =? 17) = false.
Proof. split; reflexivity. Qed.

(** ** Fields that count *)

Lemma truth_present (v : option str) : truth v = true <-> present v.
Proof.
  unfold present. destruct v as [[|c s]|]; cbn; split.
  - discriminate.
  - intros [s [[= <-] Hne]]. now contradiction Hne.
  - intros _. exists (c :: s). split; [reflexivity | discriminate].
  - reflexivity.
  - discriminate.
  - intros [s [[=] _]].
Qed.

Lemma all_truth_present (year make model : option str) :
  truth year && truth make && truth model = true
  <-> present year /\ present make /\ present model.
Proof. rewrite !andb_true_iff, !truth_present. tauto. Qed.

(** ** The three ways through [get_vin] *)

Section GetVin.

Variable capitalize : str -> str.
Variable car_img_file : str.
Variable get_vehicle_info : str -> outcome.

Local Abbreviation decode :=
  (get_vin capitalize car_img_file get_vehicle_info).

Lemma get_vin_wrong_length (vin username : str) :
  List.length vin <> 17%nat ->
  decode vin username
  = (GET_VIN_SETUP ++ [Render StatusArea (Error MSG_LENGTH)], Done tt).
Proof.
  intros Hlen. unfold get_vin.
  destruct (len vin =? 17) eqn:E.
  - apply len_is_17 in E. contradiction.
  - reflexivity.
Qed.

Lemma get_vin_bad_character (vin username : str) :
  List.length vin = 17%nat ->
  re_match_vin vin = false ->
  decode vin username
  = (GET_VIN_SETUP ++ [Render StatusArea (Error MSG_ALPHABET)], Done tt).
Proof.
  intros Hlen Hre. apply len_is_17 in Hlen.
  unfold get_vin. cbn -[re_match_vin len MSG_ALPHABET].
  rewrite Hlen, Hre. reflexivity.
Qed.

Lemma get_vin_accepted (vin username : str) :
  List.length vin = 17%nat ->
  re_match_vin vin = true ->
  decode vin username
  = (ACCEPTED vin
     ++ ANSWER car_img_file (capitalize username) (get_vehicle_info vin),
     Done tt).
Proof.
  intros Hlen Hre. apply len_is_17 in Hlen.
  unfold get_vin, call_get_vehicle_info.
  cbn -[re_match_vin len truth MSG_DECODING MSG_FAILED].
  rewrite Hlen, Hre.
  destruct (get_vehicle_info vin) as [year make model|e]; [|reflexivity].
  destruct year as [[|y0 y]|], make as [[|m0 m]|], model as [[|d0 d]|];
    reflexivity.
Qed.

(** Whatever the lookup does, [get_vin] comes back without an exception. *)
Lemma get_vin_done (vin username : str) :
  snd (decode vin username) = Done tt.
Proof.
  destruct (PeanoNat.Nat.eq_dec (List.length vin) 17) as [Hlen|Hlen].
  - destruct (re_match_vin vin) eqn:Hre.
    + now rewrite get_vin_accepted.
    + now rewrite get_vin_bad_character.
  - now rewrite get_vin_wrong_length.
Qed.

(** *** Reading the answer part of a trace *)

Lemma lookup_calls_app (t u : trace) :
  lookup_calls (t ++ u) = (lookup_calls t + lookup_calls u)%nat.
Proof. unfold lookup_calls. now rewrite filter_app, length_app. Qed.

Lemma status_messages_app (t u : trace) :
  status_messages (t ++ u) = status_messages t ++ status_messages u.
Proof. unfold status_messages. apply flat_map_app. Qed.

Lemma in_status_messages (e : element) (t : trace) :
  In (Render StatusArea e) t <-> In e (status_messages t).
Proof.
  unfold status_messages. rewrite in_flat_map. split.
  - intros Hin. exists (Render StatusArea e). split; [assumption | now left].
  - intros [[c e'|v] [Hin He]]; [|contradiction].
    destruct c; cbn in He; try contradiction.
    destruct He as [->|[]]. assumption.
Qed.

Lemma lookup_calls_ANSWER (who : str) (o : outcome) :
  lookup_calls (ANSWER car_img_file who o) = 0%nat.
Proof.
  destruct o as [year make model|e]; cbn; [|reflexivity].
  now destruct (truth year && truth make && truth model).
Qed.

Lemma status_messages_ANSWER (who : str) (o : outcome) :
  status_messages (ANSWER car_img_file who o)
  = match o with
    | Returns year make model =>
        if truth year && truth make && truth model
        then [Success MSG_DECODED]
        else [Warning (MSG_INCOMPLETE who)]
    | Raises e => [Error (MSG_FAILED e)]
    end.
Proof.
  destruct o as [year make model|e]; [|reflexivity].
  cbn [ANSWER]. destruct (truth year && truth make && truth model);
    reflexivity.
Qed.

Lemma MSG_FAILED_is_no_format_error (e : exn) :
  MSG_FAILED e <> MSG_LENGTH /\ MSG_FAILED e <> MSG_ALPHABET.
Proof. split; intros H; cbn in H; discriminate H. Qed.

Lemma no_format_error_after_acceptance (vin who : str) (o : outcome) :
  ~ format_error_shown (ACCEPTED vin ++ ANSWER car_img_file who o).
Proof.
  destruct (MSG_FAILED_is_no_format_error
              match o with Raises e => e | _ => {| exn_str := [] |} end)
    as [Hl Ha].
  unfold format_error_shown. rewrite !in_status_messages.
  rewrite status_messages_app, status_messages_ANSWER.
  change (status_messages (ACCEPTED vin)) with [Info MSG_DECODING].
  destruct o as [year make model|e];
    [destruct (truth year && truth make && truth model)|];
    cbn [In app];
    intros [[H|[H|[]]]|[H|[H|[]]]]; try discriminate H;
    injection H as H; contradiction.
Qed.

End GetVin.

(** ** Validation and lookup in [get_vin] *)

Section Validation.

Variable capitalize : str -> str.
Variable car_img_file : str.
Variable get_vehicle_info : str -> outcome.

Local Abbreviation decode :=
  (get_vin capitalize car_img_file get_vehicle_info).

(** C1.  A string of 17 characters, all of the alphabet A-H, J-N, P, R-Z,
    0-9, is accepted by [get_vin]: neither format error is shown, and the
    lookup is called exactly once, with that string. *)
Theorem well_formed_vin_is_looked_up_once (vin username : str) :
  well_formed_vin vin ->
  ~ format_error_shown (events (decode vin username))
  /\ lookup_calls (events (decode vin username)) = 1%nat
  /\ In (Lookup vin) (events (decode vin username)).
Proof.
  intros Hwf. destruct (well_formed_vin_passes _ Hwf) as [_ Hre].
  destruct Hwf as [Hlen _].
  rewrite (get_vin_accepted _ _ _ _ username Hlen Hre). cbn [events fst].
  split; [apply no_format_error_after_acceptance|]. split.
  - rewrite lookup_calls_app, lookup_calls_ANSWER. reflexivity.
  - apply in_or_app. left. cbn. auto.
Qed.

(** C2.  A string whose length is not 17 is rejected: [get_vin] shows the
    format error about the length and returns; the lookup is not called. *)
Theorem wrong_length_is_rejected_without_lookup (vin username : str) :
  List.length vin <> 17%nat ->
  decode vin username
  = (GET_VIN_SETUP ++ [Render StatusArea (Error MSG_LENGTH)], Done tt)
  /\ format_error_shown (events (decode vin username))
  /\ lookup_calls (events (decode vin username)) = 0%nat.
Proof.
  intros Hlen. rewrite (get_vin_wrong_length _ _ _ _ username Hlen).
  split; [reflexivity|]. split; [|reflexivity].
  left. cbn. auto.
Qed.

(** C3.  A string of 17 characters that holds the letter I, O or Q, or
    any other character outside the allowed alphabet, is rejected:
    [get_vin] shows the format error about the characters and returns; the
    lookup is not called. *)
Theorem disallowed_character_is_rejected_without_lookup (vin username : str) :
  List.length vin = 17%nat ->
  (In (ord "I") vin \/ In (ord "O") vin \/ In (ord "Q") vin
   \/ Exists (fun c => ~ allowed c) vin) ->
  decode vin username
  = (GET_VIN_SETUP ++ [Render StatusArea (Error MSG_ALPHABET)], Done tt)
  /\ format_error_shown (events (decode vin username))
  /\ lookup_calls (events (decode vin username)) = 0%nat.
Proof.
  intros Hlen Hbad.
  assert (Hre : re_match_vin vin = false).
  { destruct (re_match_vin vin) eqn:E; [|reflexivity]. exfalso.
    apply (re_match_vin_allowed _ Hlen) in E. rewrite Forall_forall in E.
    assert (Hletter : forall c, In c vin -> in_alphabet c = false -> False).
    { intros c Hc Hout. apply E, in_alphabet_allowed in Hc. congruence. }
    destruct Hbad as [H|[H|[H|H]]];
      try (apply (Hletter _ H); reflexivity).
    apply Exists_exists in H. destruct H as [c [Hc Hout]]. auto. }
  rewrite (get_vin_bad_character _ _ _ _ username Hlen Hre).
  split; [reflexivity|]. split; [|reflexivity].
  right. cbn. auto.
Qed.

(** C4.  When the lookup returns three fields for an accepted VIN, the
    vehicle details are drawn exactly when all three are present (a
    non-empty string): then the success message is up and the three lines
    "**Make:** " + make, "**Model:** " + model and "**Model Year:** " + year
    are written in the second column; otherwise the status shows the
    incomplete-data warning, with the capitalised user name in it, and
    nothing is drawn in the columns. *)
Theorem details_shown_iff_all_fields_present
    (vin username : str) (year make model : option str) :
  well_formed_vin vin ->
  get_vehicle_info vin = Returns year make model ->
  (renders_details (events (decode vin username)) = true
   <-> present year /\ present make /\ present model)
  /\ (present year /\ present make /\ present model ->
      events (decode vin username)
      = ACCEPTED vin
        ++ DETAILS car_img_file (capitalize username) year make model
      /\ In (Render Col2 (Write (MSG_MAKE make))) (events (decode vin username))
      /\ In (Render Col2 (Write (MSG_MODEL model))) (events (decode vin username))
      /\ In (Render Col2 (Write (MSG_YEAR year))) (events (decode vin username)))
  /\ (~ (present year /\ present make /\ present model) ->
      events (decode vin username)
      = ACCEPTED vin ++ INCOMPLETE (capitalize username)
      /\ status_shown (events (decode vin username))
         = Some (Warning (MSG_INCOMPLETE (capitalize username)))
      /\ renders_details (events (decode vin username)) = false)
  /\ (forall y m d : str,
        year = Some y -> make = Some m -> model = Some d ->
        y <> [] -> m <> [] -> d <> [] ->
        status_shown (events (decode vin username))
        = Some (Success (lit "VIN decoded successfully!"))
        /\ In (Render Col2 (Write (lit "**Make:** " ++ m)))
             (events (decode vin username))
        /\ In (Render Col2 (Write (lit "**Model:** " ++ d)))
             (events (decode vin username))
        /\ In (Render Col2 (Write (lit "**Model Year:** " ++ y)))
             (events (decode vin username)))
  /\ (~ (present year /\ present make /\ present model) ->
      status_shown (events (decode vin username))
      = Some (Warning
                (lit "Incomplete vehicle data returned. "
                 ++ capitalize username
                 ++ lit ", please verify the VIN and try again."))).
Proof.
  intros Hwf Hret. destruct (well_formed_vin_passes _ Hwf) as [_ Hre].
  destruct Hwf as [Hlen _].
  rewrite (get_vin_accepted _ _ _ _ username Hlen Hre), Hret.
  cbn [events fst ANSWER]. rewrite <- all_truth_present.
  split; [|split; [|split; [|split]]].
  - destruct (truth year && truth make && truth model).
    + split; reflexivity.
    + split; [intros H; exact H | discriminate].
  - destruct (truth year && truth make && truth model); [|discriminate].
    intros _. split; [reflexivity|].
    unfold DETAILS.
    repeat split; apply in_or_app; right; cbn [In]; auto 10.
  - destruct (truth year && truth make && truth model).
    + intros Hno. now contradiction Hno.
    + intros _. split; [reflexivity|]. split; reflexivity.
  - intros y m d -> -> -> Hy Hm Hd.
    destruct y as [|y0 y]; [contradiction|].
    destruct m as [|m0 m]; [contradiction|].
    destruct d as [|d0 d]; [contradiction|].
    cbn [truth truthy andb]. split; [reflexivity|].
    unfold DETAILS.
    repeat split; apply in_or_app; right;
      repeat first [left; reflexivity | right].
  - destruct (truth year && truth make && truth model).
    + intros Hno. now contradiction Hno.
    + intros _. reflexivity.
Qed.

(** C5.  When the lookup raises an exception for an accepted VIN,
    [get_vin] writes the error "An error occurred while decoding the VIN: "
    followed by the exception's text to the status placeholder and returns;
    the lookup was called once and not again, and nothing is drawn in the
    columns. *)
Theorem lookup_exception_is_reported_once
    (vin username : str) (e : exn) :
  well_formed_vin vin ->
  get_vehicle_info vin = Raises e ->
  decode vin username
  = (ACCEPTED vin ++ [Render StatusArea (Error (MSG_FAILED e))], Done tt)
  /\ status_shown (events (decode vin username)) = Some (Error (MSG_FAILED e))
  /\ (lookup_calls (events (decode vin username)) <= 1)%nat
  /\ renders_details (events (decode vin username)) = false
  /\ status_shown (events (decode vin username))
     = Some (Error
               (lit "An error occurred while decoding the VIN: "
                ++ exn_str e))
  /\ In (Render StatusArea
           (Error
              (lit "An error occurred while decoding the VIN: "
               ++ exn_str e)))
        (events (decode vin username)).
Proof.
  intros Hwf Hraise. destruct (well_formed_vin_passes _ Hwf) as [_ Hre].
  destruct Hwf as [Hlen _].
  rewrite (get_vin_accepted _ _ _ _ username Hlen Hre), Hraise.
  cbn [events fst ANSWER].
  split; [reflexivity|]. split; [reflexivity|].
  split; [cbn; lia|]. split; [reflexivity|]. split; [reflexivity|].
  apply in_or_app. right. left. reflexivity.
Qed.

(** C6.  For every string, [get_vin] returns without an exception, and
    the status placeholder ends up showing a message: one of the two
    format errors, the incomplete-data warning, the lookup's failure, or
    the success message. *)
Theorem get_vin_always_returns_with_a_message (vin username : str) :
  returns_normally (decode vin username)
  /\ (status_shown (events (decode vin username)) = Some (Error MSG_LENGTH)
      \/ status_shown (events (decode vin username))
         = Some (Error MSG_ALPHABET)
      \/ status_shown (events (decode vin username))
         = Some (Warning (MSG_INCOMPLETE (capitalize username)))
      \/ (exists e,
            get_vehicle_info vin = Raises e
            /\ status_shown (events (decode vin username))
               = Some (Error (MSG_FAILED e)))
      \/ status_shown (events (decode vin username))
         = Some (Success MSG_DECODED)).
Proof.
  split.
  - unfold returns_normally. now rewrite get_vin_done.
  - destruct (PeanoNat.Nat.eq_dec (List.length vin) 17) as [Hlen|Hlen].
    + destruct (re_match_vin vin) eqn:Hre.
      * rewrite (get_vin_accepted _ _ _ _ username Hlen Hre).
        cbn [events fst].
        destruct (get_vehicle_info vin) as [year make model|e]; cbn [ANSWER].
        -- destruct (truth year && truth make && truth model);
             [do 4 right | do 2 right; left]; reflexivity.
        -- do 3 right. left. exists e. split; reflexivity.
      * rewrite (get_vin_bad_character _ _ _ _ username Hlen Hre).
        right. left. reflexivity.
    + rewrite (get_vin_wrong_length _ _ _ _ username Hlen).
      left. reflexivity.
Qed.




End Validation.

(** *** The theorems above on the sample VIN [1HGCM82633A004352] *)

Ltac check_well_formed :=
  split; [reflexivity | apply all_in_alphabet; reflexivity].

Lemma well_formed_vin_is_looked_up_once_witness :
  well_formed_vin Sample.VIN
  /\ lookup_calls (events (Sample.decode Sample.accord Sample.VIN (lit "bob")))
     = 1%nat.
Proof.
  assert (Hwf : well_formed_vin Sample.VIN) by check_well_formed.
  split; [exact Hwf|].
  exact (proj1 (proj2 (well_formed_vin_is_looked_up_once
                         Sample.capitalize Sample.car_img_file
                         (Sample.answers Sample.accord)
                         Sample.VIN (lit "bob") Hwf))).
Defined.

Lemma wrong_length_is_rejected_without_lookup_witness :
  List.length (lit "1HGCM82633A00435") <> 17%nat
  /\ lookup_calls
       (events (Sample.decode Sample.accord (lit "1HGCM82633A00435") (lit "bob")))
     = 0%nat.
Proof.
  assert (Hlen : List.length (lit "1HGCM82633A00435") <> 17%nat)
    by (vm_compute; discriminate).
  split; [exact Hlen|].
  exact (proj2 (proj2 (wrong_length_is_rejected_without_lookup
                         Sample.capitalize Sample.car_img_file
                         (Sample.answers Sample.accord)
                         (lit "1HGCM82633A00435") (lit "bob") Hlen))).
Defined.

Lemma disallowed_character_is_rejected_without_lookup_witness :
  List.length (lit "1HGCM82633A00435Q") = 17%nat
  /\ In (ord "Q") (lit "1HGCM82633A00435Q")
  /\ lookup_calls
       (events (Sample.decode Sample.accord (lit "1HGCM82633A00435Q") (lit "bob")))
     = 0%nat.
Proof.
  assert (Hlen : List.length (lit "1HGCM82633A00435Q") = 17%nat) by reflexivity.
  assert (HQ : In (ord "Q") (lit "1HGCM82633A00435Q"))
    by (vm_compute; auto 20).
  split; [exact Hlen|]. split; [exact HQ|].
  exact (proj2 (proj2 (disallowed_character_is_rejected_without_lookup
                         Sample.capitalize Sample.car_img_file
                         (Sample.answers Sample.accord)
                         (lit "1HGCM82633A00435Q") (lit "bob") Hlen
                         (or_intror (or_intror (or_introl HQ)))))).
Defined.

Lemma details_shown_iff_all_fields_present_witness :
  well_formed_vin Sample.VIN
  /\ (renders_details
        (events (Sample.decode Sample.accord Sample.VIN (lit "bob"))) = true
      <-> present (Some (lit "2003")) /\ present (Some (lit "HONDA"))
          /\ present (Some (lit "Accord")))
  /\ (status_shown
        (events (Sample.decode Sample.accord Sample.VIN (lit "bob")))
      = Some (Success (lit "VIN decoded successfully!"))
      /\ In (Render Col2 (Write (lit "**Make:** HONDA")))
           (events (Sample.decode Sample.accord Sample.VIN (lit "bob")))
      /\ In (Render Col2 (Write (lit "**Model:** Accord")))
           (events (Sample.decode Sample.accord Sample.VIN (lit "bob")))
      /\ In (Render Col2 (Write (lit "**Model Year:** 2003")))
           (events (Sample.decode Sample.accord Sample.VIN (lit "bob")))).
Proof.
  assert (Hwf : well_formed_vin Sample.VIN) by check_well_formed.
  assert (Hy : lit "2003" <> []) by discriminate.
  assert (Hm : lit "HONDA" <> []) by discriminate.
  assert (Hd : lit "Accord" <> []) by discriminate.
  split; [exact Hwf|].
  pose proof (details_shown_iff_all_fields_present
                Sample.capitalize Sample.car_img_file
                (Sample.answers Sample.accord) Sample.VIN (lit "bob")
                (Some (lit "2003")) (Some (lit "HONDA")) (Some (lit "Accord"))
                Hwf eq_refl) as H.
  split; [exact (proj1 H)|].
  exact (proj1 (proj2 (proj2 (proj2 H)))
           (lit "2003") (lit "HONDA") (lit "Accord")
           eq_refl eq_refl eq_refl Hy Hm Hd).
Defined.

Lemma lookup_exception_is_reported_once_witness :
  well_formed_vin Sample.VIN
  /\ status_shown
       (events (Sample.decode (Raises Sample.timeout) Sample.VIN (lit "bob")))
     = Some (Error (MSG_FAILED Sample.timeout))
  /\ status_shown
       (events (Sample.decode (Raises Sample.timeout) Sample.VIN (lit "bob")))
     = Some (Error
               (lit "An error occurred while decoding the VIN: Read timed out.")).
Proof.
  assert (Hwf : well_formed_vin Sample.VIN) by check_well_formed.
  split; [exact Hwf|].
  pose proof (lookup_exception_is_reported_once
                Sample.capitalize Sample.car_img_file
                (Sample.answers (Raises Sample.timeout))
                Sample.VIN (lit "bob") Sample.timeout Hwf eq_refl) as H.
  split; [exact (proj1 (proj2 H))|].
  exact (proj1 (proj2 (proj2 (proj2 (proj2 H))))).
Defined.



(** ** Normalisation of the VIN field: [.strip().upper()] *)

Lemma lstrip_spaces (l x : str) :
  Forall (fun c => isspace c = true) l -> lstrip (l ++ x) = lstrip x.
Proof.
  induction 1 as [|c l Hc _ IH]; [reflexivity|].
  cbn [app lstrip]. now rewrite Hc.
Qed.

Lemma rstrip_spaces (l : str) :
  Forall (fun c => isspace c = true) l -> rstrip l = [].
Proof.
  induction 1 as [|c l Hc _ IH]; [reflexivity|].
  cbn [rstrip]. now rewrite IH, Hc.
Qed.

Lemma rstrip_app_spaces (s l : str) :
  Forall (fun c => isspace c = true) l -> rstrip (s ++ l) = rstrip s.
Proof.
  intros Hl. induction s as [|c s IH]; cbn [app rstrip].
  - now apply rstrip_spaces.
  - now rewrite IH.
Qed.

Lemma rstrip_solid (s : str) :
  Forall (fun c => isspace c = false) s -> rstrip s = s.
Proof.
  induction 1 as [|c s Hc _ IH]; [reflexivity|].
  cbn [rstrip]. rewrite IH, Hc. now destruct s.
Qed.

(** White space around a run of other characters is what [strip] drops. *)
Lemma strip_padding (before s after : str) :
  Forall (fun c => isspace c = true) before ->
  Forall (fun c => isspace c = true) after ->
  Forall (fun c => isspace c = false) s ->
  strip (before ++ s ++ after) = s.
Proof.
  intros Hb Ha Hs. unfold strip. rewrite (lstrip_spaces _ _ Hb).
  destruct Hs as [|c s Hc Hs].
  - cbn [app]. rewrite <- (app_nil_r after), (lstrip_spaces _ _ Ha).
    reflexivity.
  - cbn [app lstrip]. rewrite Hc.
    change (c :: s ++ after) with ((c :: s) ++ after).
    rewrite (rstrip_app_spaces _ _ Ha). apply rstrip_solid.
    now constructor.
Qed.

(** A character of the alphabet, in either case, is no white space, and
    [upper] gives the character of the alphabet. *)
Lemma same_up_to_case_upper (unicode_upper : char -> str) (c d : char) :
  allowed d ->
  same_up_to_case c d ->
  isspace c = false /\ upper_char unicode_upper c = [d].
Proof.
  unfold allowed, ALPHABET, lit. cbn [list_ascii_of_string List.map In].
  intros Hd Hcd.
  repeat (destruct Hd as [<-|Hd];
          [ destruct Hcd as [->|[Hlo [Hhi ->]]];
            first [ split; reflexivity | exfalso; apply Hlo; reflexivity ]
          | ]).
  contradiction.
Qed.

Lemma typed_as_normalises (unicode_upper : char -> str) (raw v : str) :
  Forall allowed v ->
  typed_as raw v ->
  upper unicode_upper (strip raw) = v.
Proof.
  intros Hv (before & s & after & -> & Hb & Ha & Hsv).
  assert (Hs : Forall (fun c => isspace c = false) s
               /\ upper unicode_upper s = v).
  { clear Hb Ha. induction Hsv as [|c d s v Hcd _ IH].
    - split; [constructor | reflexivity].
    - inversion Hv as [|? ? Hd Hv']; subst.
      destruct (same_up_to_case_upper unicode_upper c d Hd Hcd) as [Hsp Hup].
      destruct (IH Hv') as [Hsolid Hrest]. split.
      + now constructor.
      + unfold upper in *. cbn [flat_map]. now rewrite Hup, Hrest. }
  destruct Hs as [Hsolid Hup].
  now rewrite (strip_padding _ _ _ Hb Ha Hsolid).
Qed.

(** ** The button's branch in [main] *)

Section Main.

Variable capitalize : str -> str.
Variable unicode_upper : char -> str.
Variables logo_img_file car_img_file : str.
Variable get_vehicle_info : str -> outcome.

Local Abbreviation decode :=
  (get_vin capitalize car_img_file get_vehicle_info).

Local Abbreviation page :=
  (main capitalize unicode_upper logo_img_file car_img_file get_vehicle_info).

Local Abbreviation HEAD := (MAIN_HEAD capitalize logo_img_file).

(** Without a click nothing is drawn between the button and the footer. *)
Lemma main_without_click (name raw : str) :
  page name raw false = (HEAD name ++ MAIN_FOOT, Done tt).
Proof. unfold main. destruct name; reflexivity. Qed.

(** On a click, the normalised field goes to [get_vin] unless it is empty. *)
Lemma main_on_click (name raw : str) :
  page name raw true
  = (HEAD name
     ++ (if truthy (upper unicode_upper (strip raw))
         then events (decode (upper unicode_upper (strip raw)) name)
         else [Render Page (Error (MSG_NO_VIN (capitalize name)))])
     ++ MAIN_FOOT,
     Done tt).
Proof.
  pose proof (get_vin_done capitalize car_img_file get_vehicle_info
                (upper unicode_upper (strip raw)) name) as Hdone.
  unfold main, events.
  destruct name as [|n0 name];
    cbn -[get_vin upper strip truthy MAIN_FOOT];
    (destruct (truthy (upper unicode_upper (strip raw)));
     [ destruct (get_vin _ _ _ (upper unicode_upper (strip raw)) _) as [t r];
       cbn [snd] in Hdone; subst r
     | ]);
    reflexivity.
Qed.

Lemma status_messages_HEAD (name : str) : status_messages (HEAD name) = [].
Proof. destruct name; reflexivity. Qed.

Lemma lookup_calls_HEAD (name : str) : lookup_calls (HEAD name) = 0%nat.
Proof. destruct name; reflexivity. Qed.

(** [st.empty()] is called by [get_vin] only. *)
Lemma no_placeholder_in_HEAD (name : str) : ~ In (Render Page Empty) (HEAD name).
Proof.
  intros H. destruct name; cbn [MAIN_HEAD truthy app In] in H;
    repeat (destruct H as [H|H]; [discriminate H|]); contradiction.
Qed.

(** C9.  The content of the VIN field is stripped of surrounding white
    space and put in upper case before it is validated: when the field
    holds a well-formed VIN up to letter case, with white space around it,
    and the button is clicked, [main] runs [get_vin] on that VIN, which
    accepts it (no format error, one lookup, on the VIN). *)
Theorem typed_vin_is_normalised_and_accepted (name raw v : str) :
  well_formed_vin v ->
  typed_as raw v ->
  upper unicode_upper (strip raw) = v
  /\ page name raw true
     = (HEAD name ++ events (decode v name) ++ MAIN_FOOT, Done tt)
  /\ ~ format_error_shown (events (page name raw true))
  /\ lookup_calls (events (page name raw true)) = 1%nat
  /\ In (Lookup v) (events (page name raw true)).
Proof.
  intros Hwf Htyped.
  assert (Hnorm : upper unicode_upper (strip raw) = v)
    by (apply typed_as_normalises; [apply Hwf | assumption]).
  destruct (well_formed_vin_passes _ Hwf) as [_ Hre].
  assert (Hlen : List.length v = 17%nat) by apply Hwf.
  assert (Htrue : truthy v = true) by (destruct v; [discriminate Hlen | reflexivity]).
  rewrite main_on_click, Hnorm, Htrue.
  split; [reflexivity|]. split; [reflexivity|].
  rewrite (get_vin_accepted _ _ _ _ name Hlen Hre). cbn [events fst].
  split; [|split].
  - intros Hshown.
    apply (no_format_error_after_acceptance car_img_file v (capitalize name)
             (get_vehicle_info v)).
    unfold format_error_shown in *.
    rewrite !in_status_messages in *.
    rewrite !status_messages_app, status_messages_HEAD in Hshown.
    change (status_messages MAIN_FOOT) with (@nil element) in Hshown.
    rewrite app_nil_r in Hshown. cbn [app] in Hshown.
    rewrite status_messages_app. exact Hshown.
  - rewrite !lookup_calls_app, lookup_calls_HEAD, lookup_calls_ANSWER.
    reflexivity.
  - apply in_or_app. right. apply in_or_app. left.
    apply in_or_app. left. cbn. auto.
Qed.


End Main.

(** *** The two theorems on [main] on sample fields *)

Ltac check_same_up_to_case :=
  first
    [ left; reflexivity
    | right; split; [vm_compute; discriminate|];
      split; [vm_compute; discriminate | reflexivity] ].

Lemma typed_vin_is_normalised_and_accepted_witness :
  well_formed_vin Sample.VIN
  /\ typed_as (lit " 1hgcm82633a004352 ") Sample.VIN
  /\ upper Sample.unicode_upper (strip (lit " 1hgcm82633a004352 ")) = Sample.VIN
  /\ Sample.page Sample.accord (lit "bob") (lit " 1hgcm82633a004352 ") true
     = (MAIN_HEAD Sample.capitalize Sample.logo_img_file (lit "bob")
        ++ events (Sample.decode Sample.accord Sample.VIN (lit "bob"))
        ++ MAIN_FOOT,
        Done tt).
Proof.
  assert (Hwf : well_formed_vin Sample.VIN) by check_well_formed.
  assert (Htyped : typed_as (lit " 1hgcm82633a004352 ") Sample.VIN).
  { exists (lit " "), (lit "1hgcm82633a004352"), (lit " ").
    split; [reflexivity|].
    split; [constructor; [reflexivity | constructor]|].
    split; [constructor; [reflexivity | constructor]|].
    repeat (apply Forall2_cons; [check_same_up_to_case|]).
    apply Forall2_nil. }
  split; [exact Hwf|]. split; [exact Htyped|].
  pose proof (typed_vin_is_normalised_and_accepted
                Sample.capitalize Sample.unicode_upper
                Sample.logo_img_file Sample.car_img_file
                (Sample.answers Sample.accord)
                (lit "bob") (lit " 1hgcm82633a004352 ") Sample.VIN
                Hwf Htyped) as H.
  exact (conj (proj1 H) (proj1 (proj2 H))).
Defined.


(** * Further properties *)

(** ** What the pattern accepts *)

Lemma match_repeat_some (cls : Re.char_class) (n : nat) :
  forall s rest : str,
    Re.match_repeat cls n s = Some rest
    <-> exists p, s = p ++ rest /\ List.length p = n
                  /\ List.forallb (Re.in_class cls) p = true.
Proof.
  induction n as [|n IH]; intros s rest; cbn [Re.match_repeat].
  - split.
    + intros [= ->]. exists []. repeat split.
    + intros (p & -> & Hlen & _). destruct p; [reflexivity | discriminate].
  - destruct s as [|c r].
    + split; [discriminate|].
      intros (p & Heq & Hlen & _). destruct p; discriminate.
    + destruct (Re.in_class cls c) eqn:Hc.
      * rewrite IH. split.
        -- intros (p & -> & Hlen & Hall). exists (c :: p).
           cbn. rewrite Hc, Hall, Hlen. repeat split.
        -- intros (p & Heq & Hlen & Hall).
           destruct p as [|c' p]; [discriminate|].
           cbn in Heq, Hlen, Hall. injection Heq as <- ->.
           apply andb_true_iff in Hall. exists p.
           repeat split; [lia | apply Hall].
      * split; [discriminate|].
        intros (p & Heq & Hlen & Hall).
        destruct p as [|c' p]; [discriminate|].
        cbn in Heq, Hall. injection Heq as <- ->.
        rewrite Hc in Hall. discriminate.
Qed.

Lemma at_dollar_true (rest : str) :
  Re.at_dollar rest = true <-> rest = [] \/ rest = [10].
Proof.
  destruct rest as [|c [|d rest]]; cbn.
  - split; auto.
  - rewrite N.eqb_eq. split.
    + intros ->. now right.
    + intros [H|[= ->]]; [discriminate | reflexivity].
  - split; [discriminate | intros [H|H]; discriminate].
Qed.

Lemma forallb_class_allowed (p : str) :
  List.forallb (Re.in_class VIN_CLASS) p = true <-> Forall allowed p.
Proof.
  rewrite forallb_forall, Forall_forall.
  split; intros H c Hc; apply in_class_allowed, H, Hc.
Qed.

(** X3.  The pattern of [get_vin] matches the well-formed VINs and, because
    [$] also holds before a final line feed, the well-formed VINs followed
    by one line feed; it matches nothing else. *)
Theorem pattern_matches_vin_with_optional_line_feed (s : str) :
  re_match_vin s = true
  <-> well_formed_vin s \/ exists v, s = v ++ [10] /\ well_formed_vin v.
Proof.
  unfold re_match_vin, Re.match_anchored, well_formed_vin. split.
  - destruct (Re.match_repeat VIN_CLASS 17 s) as [rest|] eqn:E;
      [|discriminate].
    apply match_repeat_some in E. destruct E as (p & -> & Hlen & Hall).
    apply forallb_class_allowed in Hall.
    rewrite at_dollar_true. intros [-> | ->].
    + left. rewrite app_nil_r. now split.
    + right. exists p. repeat split; assumption.
  - intros [[Hlen Hall] | (v & -> & Hlen & Hall)].
    + rewrite (match_repeat_exact _ _ _ Hlen).
      apply forallb_class_allowed in Hall. now rewrite Hall.
    + assert (E : Re.match_repeat VIN_CLASS 17 (v ++ [10]) = Some [10]).
      { apply match_repeat_some. exists v. repeat split; [assumption|].
        now apply forallb_class_allowed. }
      rewrite E. reflexivity.
Qed.

(** ** What [get_vin] does on every input *)

Lemma lookup_in_counts (v : str) (t : trace) :
  In (Lookup v) t -> (0 < lookup_calls t)%nat.
Proof.
  unfold lookup_calls. intros Hin.
  assert (Hf : In (Lookup v) (List.filter is_lookup t))
    by (apply filter_In; split; [assumption | reflexivity]).
  destruct (List.filter is_lookup t); [contradiction | cbn; lia].
Qed.

Lemma well_formed_vin_iff_passes (vin : str) :
  well_formed_vin vin
  <-> List.length vin = 17%nat /\ re_match_vin vin = true.
Proof.
  unfold well_formed_vin. split; intros [Hlen H]; split; try assumption;
    now apply (re_match_vin_allowed _ Hlen).
Qed.

Section EveryInput.

Variable capitalize : str -> str.
Variable car_img_file : str.
Variable get_vehicle_info : str -> outcome.

Local Abbreviation decode :=
  (get_vin capitalize car_img_file get_vehicle_info).

(** The three ways through [get_vin], by what the VIN is. *)
Lemma get_vin_cases (vin username : str) :
  (~ well_formed_vin vin
   /\ (decode vin username
       = (GET_VIN_SETUP ++ [Render StatusArea (Error MSG_LENGTH)], Done tt)
       \/ decode vin username
          = (GET_VIN_SETUP ++ [Render StatusArea (Error MSG_ALPHABET)],
             Done tt)))
  \/ (well_formed_vin vin
      /\ decode vin username
         = (ACCEPTED vin
            ++ ANSWER car_img_file (capitalize username)
                 (get_vehicle_info vin),
            Done tt)).
Proof.
  destruct (PeanoNat.Nat.eq_dec (List.length vin) 17) as [Hlen|Hlen].
  - destruct (re_match_vin vin) eqn:Hre.
    + right. split; [now apply well_formed_vin_iff_passes|].
      now apply get_vin_accepted.
    + left. split.
      * intros Hwf. apply well_formed_vin_iff_passes in Hwf.
        destruct Hwf as [_ Hwf]. congruence.
      * right. now apply get_vin_bad_character.
  - left. split.
    + intros [Hwf _]. contradiction.
    + left. now apply get_vin_wrong_length.
Qed.

Lemma lookup_after_acceptance (vin who v : str) (o : outcome) :
  In (Lookup v) (ACCEPTED vin ++ ANSWER car_img_file who o) -> v = vin.
Proof.
  intros H. apply in_app_or in H. destruct H as [H|H].
  - cbn in H. destruct H as [H|[H|[H|[H|[]]]]]; try discriminate H.
    now injection H.
  - apply lookup_in_counts in H. rewrite lookup_calls_ANSWER in H. lia.
Qed.

Lemma details_after_acceptance (vin who : str) (o : outcome) :
  renders_details (ACCEPTED vin ++ ANSWER car_img_file who o)
  = match o with
    | Returns year make model => truth year && truth make && truth model
    | Raises _ => false
    end.
Proof.
  destruct o as [year make model|e]; [|reflexivity].
  cbn [ANSWER]. destruct (truth year && truth make && truth model);
    reflexivity.
Qed.

(** X1.  The lookup is only ever called on the string [get_vin] was given,
    and only when that string is a well-formed VIN: nothing else reaches the
    external service. *)
Theorem lookup_only_sees_well_formed_vin (vin username v : str) :
  In (Lookup v) (events (decode vin username)) ->
  v = vin /\ well_formed_vin vin.
Proof.
  destruct (get_vin_cases vin username) as [[_ [E|E]] | [Hwf E]];
    rewrite E; cbn [events fst]; intros H.
  - cbn in H. destruct H as [H|[H|[H|[]]]]; discriminate H.
  - cbn in H. destruct H as [H|[H|[H|[]]]]; discriminate H.
  - split; [|assumption]. exact (lookup_after_acceptance _ _ _ _ H).
Qed.

(** X2.  The validation of [get_vin] decides exactly whether the string is
    a well-formed VIN: a format error is shown if and only if it is not, and
    the lookup is called once if it is and not at all if it is not. *)
Theorem validation_decides_well_formedness (vin username : str) :
  (format_error_shown (events (decode vin username))
   <-> ~ well_formed_vin vin)
  /\ (lookup_calls (events (decode vin username)) = 1%nat
      <-> well_formed_vin vin)
  /\ (lookup_calls (events (decode vin username)) = 0%nat
      <-> ~ well_formed_vin vin).
Proof.
  destruct (get_vin_cases vin username) as [[Hno [E|E]] | [Hwf E]];
    rewrite E; cbn [events fst].
  - split; [|split]; split; intros H; try assumption; try reflexivity.
    + left. cbn. auto.
    + discriminate H.
    + contradiction.
  - split; [|split]; split; intros H; try assumption; try reflexivity.
    + right. cbn. auto.
    + discriminate H.
    + contradiction.
  - assert (Hcount :
      lookup_calls (ACCEPTED vin
                    ++ ANSWER car_img_file (capitalize username)
                         (get_vehicle_info vin)) = 1%nat)
      by (rewrite lookup_calls_app, lookup_calls_ANSWER; reflexivity).
    rewrite Hcount.
    split; [|split]; split; intros H; try assumption; try reflexivity.
    + now apply no_format_error_after_acceptance in H.
    + contradiction.
    + discriminate H.
    + contradiction.
Qed.

(** X6.  The picture and the vehicle fields are drawn in exactly one
    situation: the string is a well-formed VIN and the lookup returned a
    year, a make and a model that are all non-empty strings. *)
Theorem details_drawn_only_for_complete_answer (vin username : str) :
  renders_details (events (decode vin username)) = true
  <-> well_formed_vin vin
      /\ exists year make model,
           get_vehicle_info vin = Returns year make model
           /\ present year /\ present make /\ present model.
Proof.
  destruct (get_vin_cases vin username) as [[Hno [E|E]] | [Hwf E]];
    rewrite E; cbn [events fst].
  - split; [discriminate | intros [Hwf _]; contradiction].
  - split; [discriminate | intros [Hwf _]; contradiction].
  - rewrite details_after_acceptance.
    destruct (get_vehicle_info vin) as [year make model|e].
    + rewrite all_truth_present. split.
      * intros H. split; [assumption|]. now exists year, make, model.
      * intros [_ (y & m & d & [= <- <- <-] & H)]. exact H.
    + split; [discriminate|].
      intros [_ (y & m & d & H & _)]. discriminate H.
Qed.

(** X4.  The user name is for display only: for the same string, two names
    give the same calls of the lookup, the same verdict of the validation
    and the same decision to draw the details. *)
Theorem username_does_not_change_the_outcome (vin name1 name2 : str) :
  List.filter is_lookup (events (decode vin name1))
  = List.filter is_lookup (events (decode vin name2))
  /\ (format_error_shown (events (decode vin name1))
      <-> format_error_shown (events (decode vin name2)))
  /\ renders_details (events (decode vin name1))
     = renders_details (events (decode vin name2)).
Proof.
  destruct (PeanoNat.Nat.eq_dec (List.length vin) 17) as [Hlen|Hlen].
  - destruct (re_match_vin vin) eqn:Hre.
    + rewrite !(get_vin_accepted _ _ _ _ _ Hlen Hre). cbn [events fst].
      split; [|split].
      * rewrite !filter_app.
        assert (Hnil : forall who,
          List.filter is_lookup
            (ANSWER car_img_file who (get_vehicle_info vin)) = []).
        { intros who. apply length_zero_iff_nil. apply lookup_calls_ANSWER. }
        now rewrite !Hnil.
      * split; intros H; now apply no_format_error_after_acceptance in H.
      * now rewrite !details_after_acceptance.
    + rewrite !(get_vin_bad_character _ _ _ _ _ Hlen Hre).
      repeat split; intros H; exact H.
  - rewrite !(get_vin_wrong_length _ _ _ _ _ Hlen).
    repeat split; intros H; exact H.
Qed.

End EveryInput.

(** X5.  In the test of the lookup's answer the second clause is implied by
    the first: a field that is [None] is already false in [all], so
    [not all(fields) or any(f is None for f in fields)] is [not
    all(fields)] for every list of fields. *)
Theorem none_test_is_implied_by_truth_test (fields : list (option str)) :
  negb (all (List.map truth fields)) || any (List.map is_None fields)
  = negb (all (List.map truth fields)).
Proof.
  induction fields as [|f fields IH]; [reflexivity|].
  unfold all, any in *. cbn [List.map forallb existsb].
  destruct f as [[|c s]|]; cbn [truth truthy is_None andb orb negb].
  - reflexivity.
  - exact IH.
  - reflexivity.
Qed.

(** ** What [main] does on every input *)

Section MainEveryInput.

Variable capitalize : str -> str.
Variable unicode_upper : char -> str.
Variables logo_img_file car_img_file : str.
Variable get_vehicle_info : str -> outcome.

Local Abbreviation decode :=
  (get_vin capitalize car_img_file get_vehicle_info).

Local Abbreviation page :=
  (main capitalize unicode_upper logo_img_file car_img_file get_vehicle_info).

Local Abbreviation HEAD := (MAIN_HEAD capitalize logo_img_file).

Local Abbreviation BRANCH :=
  (MAIN_BRANCH capitalize unicode_upper car_img_file get_vehicle_info).

Lemma main_decomposes (name raw : str) (clicked : bool) :
  page name raw clicked
  = (HEAD name ++ BRANCH name raw clicked ++ MAIN_FOOT, Done tt).
Proof.
  destruct clicked.
  - apply main_on_click.
  - apply main_without_click.
Qed.

(** On the page itself [get_vin] draws its placeholder and its columns,
    nothing else. *)
Lemma get_vin_draws_on_page (vin username : str) (e : element) :
  In (Render Page e) (events (decode vin username)) ->
  e = Empty \/ e = Columns [1; 1].
Proof.
  assert (Hsetup : forall t : trace,
            (forall e', ~ In (Render Page e') t) ->
            In (Render Page e) (GET_VIN_SETUP ++ t) ->
            e = Empty \/ e = Columns [1; 1]).
  { intros t Ht H. apply in_app_or in H. destruct H as [H|H].
    - cbn in H. destruct H as [[= <-]|[[= <-]|[]]]; auto.
    - now apply Ht in H. }
  destruct (get_vin_cases capitalize car_img_file get_vehicle_info
              vin username) as [[_ [E|E]] | [_ E]];
    rewrite E; cbn [events fst]; unfold ACCEPTED; rewrite <- ?app_assoc;
    apply Hsetup; intros e' H.
  - destruct H as [H|[]]. discriminate H.
  - destruct H as [H|[]]. discriminate H.
  - cbn [app In] in H. destruct H as [H|[H|H]]; try discriminate H.
    destruct (get_vehicle_info vin) as [year make model|ex]; cbn [ANSWER] in H.
    + destruct (truth year && truth make && truth model);
        cbn [DETAILS INCOMPLETE In] in H;
        repeat (destruct H as [H|H]; [discriminate H|]); contradiction.
    + destruct H as [H|[]]. discriminate H.
Qed.

Lemma lookup_calls_get_vin_le (vin username : str) :
  (lookup_calls (events (decode vin username)) <= 1)%nat.
Proof.
  destruct (get_vin_cases capitalize car_img_file get_vehicle_info
              vin username) as [[_ [E|E]] | [_ E]];
    rewrite E; cbn [events fst].
  - cbn. lia.
  - cbn. lia.
  - rewrite lookup_calls_app, lookup_calls_ANSWER. cbn. lia.
Qed.

Lemma no_error_in_HEAD (name : str) (c : container) (b : str) :
  ~ In (Render c (Error b)) (HEAD name).
Proof.
  intros H. destruct name; cbn [MAIN_HEAD truthy app In] in H;
    repeat (destruct H as [H|H]; [discriminate H|]); contradiction.
Qed.

Lemma no_error_in_FOOT (c : container) (b : str) :
  ~ In (Render c (Error b)) MAIN_FOOT.
Proof.
  intros H. cbn [MAIN_FOOT In] in H.
  repeat (destruct H as [H|H]; [discriminate H|]). contradiction.
Qed.

(** X7.  Without a click on the button nothing happens between the button
    and the footer: [get_vin] is not run, the lookup is not called and no
    error is shown anywhere, whatever the two fields hold. *)
Theorem nothing_is_decoded_without_a_click (name raw : str) :
  page name raw false = (HEAD name ++ MAIN_FOOT, Done tt)
  /\ lookup_calls (events (page name raw false)) = 0%nat
  /\ ~ In (Render Page Empty) (events (page name raw false))
  /\ (forall c b, ~ In (Render c (Error b)) (events (page name raw false))).
Proof.
  rewrite main_without_click. cbn [events fst].
  split; [reflexivity|]. split; [|split].
  - rewrite lookup_calls_app, lookup_calls_HEAD. reflexivity.
  - intros H. apply in_app_or in H. destruct H as [H|H].
    + exact (no_placeholder_in_HEAD capitalize logo_img_file name H).
    + cbn [MAIN_FOOT In] in H.
      repeat (destruct H as [H|H]; [discriminate H|]). contradiction.
  - intros c b H. apply in_app_or in H. destruct H as [H|H].
    + exact (no_error_in_HEAD name c b H).
    + exact (no_error_in_FOOT c b H).
Qed.

(** X8.  [main] never lets an exception out, and every run draws the same
    frame: the header block first and the two footer lines last, whatever
    the fields hold and whatever the lookup does. *)
Theorem main_always_returns_and_draws_the_footer
    (name raw : str) (clicked : bool) :
  returns_normally (page name raw clicked)
  /\ exists middle : trace,
       events (page name raw clicked) = HEAD name ++ middle ++ MAIN_FOOT.
Proof.
  rewrite main_decomposes. split.
  - exact I.
  - exists (BRANCH name raw clicked). reflexivity.
Qed.

(** X9.  In a run of [main] the lookup is called at most once, and only on
    a click, on the stripped and upper-cased content of the VIN field, and
    only when that is a well-formed VIN. *)
Theorem main_looks_up_only_the_normalised_well_formed_vin
    (name raw : str) (clicked : bool) :
  (lookup_calls (events (page name raw clicked)) <= 1)%nat
  /\ forall v,
       In (Lookup v) (events (page name raw clicked)) ->
       clicked = true
       /\ v = upper unicode_upper (strip raw)
       /\ well_formed_vin v.
Proof.
  rewrite main_decomposes. cbn [events fst]. split.
  - rewrite !lookup_calls_app, lookup_calls_HEAD.
    change (lookup_calls MAIN_FOOT) with 0%nat.
    unfold MAIN_BRANCH. destruct clicked; [|cbn; lia].
    destruct (truthy (upper unicode_upper (strip raw))); [|cbn; lia].
    pose proof (lookup_calls_get_vin_le
                  (upper unicode_upper (strip raw)) name). lia.
  - intros v H. apply in_app_or in H. destruct H as [H|H].
    { apply lookup_in_counts in H. rewrite lookup_calls_HEAD in H. lia. }
    apply in_app_or in H. destruct H as [H|H].
    2:{ cbn [MAIN_FOOT In] in H.
        repeat (destruct H as [H|H]; [discriminate H|]). contradiction. }
    unfold MAIN_BRANCH in H. destruct clicked; [|contradiction].
    destruct (truthy (upper unicode_upper (strip raw))).
    2:{ destruct H as [H|[]]. discriminate H. }
    split; [reflexivity|].
    destruct (get_vin_cases capitalize car_img_file get_vehicle_info
                (upper unicode_upper (strip raw)) name)
      as [[_ [E|E]] | [Hwf E]];
      rewrite E in H; cbn [events fst] in H.
    + cbn in H. destruct H as [H|[H|[H|[]]]]; discriminate H.
    + cbn in H. destruct H as [H|[H|[H|[]]]]; discriminate H.
    + apply lookup_after_acceptance in H. subst v. now split.
Qed.

(** X12.  The greeting is shown exactly when the name field is not empty:
    a success box on the page itself appears in a run of [main] if and only
    if a name was entered, whatever else happens in the run. *)
Theorem greeting_shown_iff_name_entered (name raw : str) (clicked : bool) :
  (exists body,
     In (Render Page (Success body)) (events (page name raw clicked)))
  <-> name <> [].
Proof.
  rewrite main_decomposes. cbn [events fst]. split.
  - intros [body H]. apply in_app_or in H. destruct H as [H|H].
    { destruct name; [|discriminate].
      cbn [MAIN_HEAD truthy app In] in H.
      repeat (destruct H as [H|H]; [discriminate H|]). contradiction. }
    apply in_app_or in H. destruct H as [H|H].
    2:{ cbn [MAIN_FOOT In] in H.
        repeat (destruct H as [H|H]; [discriminate H|]). contradiction. }
    unfold MAIN_BRANCH in H. destruct clicked; [|contradiction].
    destruct (truthy (upper unicode_upper (strip raw))).
    + apply get_vin_draws_on_page in H. destruct H as [H|H]; discriminate H.
    + destruct H as [H|[]]. discriminate H.
  - intros Hname. destruct name as [|c name]; [contradiction|].
    exists (MSG_HELLO (capitalize (c :: name))).
    apply in_or_app. left. apply in_or_app. right.
    apply in_or_app. left. cbn [truthy In]. auto.
Qed.

(** X13.  An error box on the page itself (not in the status placeholder)
    appears in a run of [main] in exactly one situation: the button was
    clicked and the stripped, upper-cased VIN field is empty. *)
Theorem page_error_iff_click_on_empty_field
    (name raw : str) (clicked : bool) :
  (exists body,
     In (Render Page (Error body)) (events (page name raw clicked)))
  <-> clicked = true /\ upper unicode_upper (strip raw) = [].
Proof.
  rewrite main_decomposes. cbn [events fst]. split.
  - intros [body H]. apply in_app_or in H. destruct H as [H|H].
    { now apply no_error_in_HEAD in H. }
    apply in_app_or in H. destruct H as [H|H].
    2:{ now apply no_error_in_FOOT in H. }
    unfold MAIN_BRANCH in H. destruct clicked; [|contradiction].
    destruct (upper unicode_upper (strip raw)) as [|c v]; [now split|].
    cbn [truthy] in H.
    apply get_vin_draws_on_page in H. destruct H as [H|H]; discriminate H.
  - intros [-> Hempty]. exists (MSG_NO_VIN (capitalize name)).
    apply in_or_app. right. apply in_or_app. left.
    unfold MAIN_BRANCH. rewrite Hempty. cbn [truthy In]. auto.
Qed.

End MainEveryInput.

(** ** What [strip] takes away from the VIN field *)

Lemma lstrip_decomposes (s : str) :
  exists before,
    s = before ++ lstrip s /\ Forall (fun c => isspace c = true) before.
Proof.
  induction s as [|c s (before & Heq & Hsp)].
  - exists []. split; [reflexivity | constructor].
  - cbn [lstrip]. destruct (isspace c) eqn:Hc.
    + exists (c :: before). split; [cbn; now rewrite <- Heq | now constructor].
    + exists []. split; [reflexivity | constructor].
Qed.

Lemma rstrip_decomposes (s : str) :
  exists after,
    s = rstrip s ++ after /\ Forall (fun c => isspace c = true) after.
Proof.
  induction s as [|c s (after & Heq & Hsp)].
  - exists []. split; [reflexivity | constructor].
  - cbn [rstrip]. destruct (rstrip s) as [|x xs].
    + cbn [app] in Heq. subst after. destruct (isspace c) eqn:Hc.
      * exists (c :: s). split; [reflexivity | now constructor].
      * exists s. split; [reflexivity | assumption].
    + exists after. split; [|assumption].
      cbn [app]. now rewrite Heq at 1.
Qed.

Lemma lstrip_head (s r : str) (c : char) :
  lstrip s = c :: r -> isspace c = false.
Proof.
  induction s as [|a s IH]; [discriminate|].
  cbn [lstrip]. destruct (isspace a) eqn:Ha; [exact IH|].
  now intros [= <- _].
Qed.

Lemma rstrip_last (s : str) :
  forall (r : str) (c : char), rstrip s = r ++ [c] -> isspace c = false.
Proof.
  induction s as [|a s IH]; intros r c.
  - destruct r; discriminate.
  - cbn [rstrip]. destruct (rstrip s) as [|x xs].
    + destruct (isspace a) eqn:Ha.
      * destruct r; discriminate.
      * destruct r as [|? [|? ?]]; try discriminate.
        now intros [= <-].
    + destruct r as [|a' r]; [discriminate|].
      cbn [app]. intros [= _ H]. exact (IH r c H).
Qed.

(** X10.  [strip] on the VIN field takes away white space and nothing
    else, and only at the two ends: the field is its stripped content with
    white space before and after it, and the stripped content neither
    starts nor ends with white space. *)
Theorem strip_takes_exactly_the_surrounding_white_space (s : str) :
  (exists before after,
     s = before ++ strip s ++ after
     /\ Forall (fun c => isspace c = true) before
     /\ Forall (fun c => isspace c = true) after)
  /\ (forall c r, strip s = c :: r -> isspace c = false)
  /\ (forall r c, strip s = r ++ [c] -> isspace c = false).
Proof.
  unfold strip.
  destruct (lstrip_decomposes s) as (before & Hb & Hsb).
  destruct (rstrip_decomposes (lstrip s)) as (after & Ha & Hsa).
  split; [|split].
  - exists before, after. split; [|split; assumption].
    rewrite <- Ha. exact Hb.
  - intros c r H. rewrite H in Ha. cbn [app] in Ha.
    exact (lstrip_head _ _ _ Ha).
  - intros r c H. exact (rstrip_last _ _ _ H).
Qed.


Section BlankField.

Variable capitalize : str -> str.
Variable unicode_upper : char -> str.
Variables logo_img_file car_img_file : str.
Variable get_vehicle_info : str -> outcome.

Local Abbreviation page :=
  (main capitalize unicode_upper logo_img_file car_img_file get_vehicle_info).


End BlankField.

(** ** The status placeholder and the columns *)

Section StatusAndColumns.

Variable capitalize : str -> str.
Variable car_img_file : str.
Variable get_vehicle_info : str -> outcome.

Local Abbreviation decode :=
  (get_vin capitalize car_img_file get_vehicle_info).



End StatusAndColumns.

(** ** Upper case on an ASCII field *)

Lemma upper_char_ascii (unicode_upper : char -> str) (c : char) :
  c < 128 ->
  exists d, upper_char unicode_upper c = [d] /\ ascii_no_small d.
Proof.
  intros Hc. unfold upper_char, ascii_no_small.
  change (ord "a") with 97. change (ord "z") with 122.
  destruct (N.leb_spec 97 c); destruct (N.leb_spec c 122); cbn [andb].
  - exists (c - 32). split; [reflexivity | lia].
  - destruct (N.ltb_spec c 128); [|lia]. exists c. split; [reflexivity | lia].
  - destruct (N.ltb_spec c 128); [|lia]. exists c. split; [reflexivity | lia].
  - destruct (N.ltb_spec c 128); [|lia]. exists c. split; [reflexivity | lia].
Qed.

Lemma upper_char_no_small (unicode_upper : char -> str) (c : char) :
  ascii_no_small c -> upper_char unicode_upper c = [c].
Proof.
  unfold upper_char, ascii_no_small.
  change (ord "a") with 97. change (ord "z") with 122.
  intros [Hc Hno].
  destruct (N.leb_spec 97 c); destruct (N.leb_spec c 122); cbn [andb];
    try (destruct (N.ltb_spec c 128); [reflexivity | lia]).
  exfalso. apply Hno. split; assumption.
Qed.

(** X16.  On a field of ASCII characters [upper] works character by
    character: the length stays the same, the result is ASCII without small
    letters, and a second [upper] changes nothing.  (Above ASCII one
    character can become several, so the length can change.) *)
Theorem upper_on_ascii_field (unicode_upper : char -> str) (s : str) :
  Forall (fun c => c < 128) s ->
  List.length (upper unicode_upper s) = List.length s
  /\ Forall ascii_no_small (upper unicode_upper s)
  /\ upper unicode_upper (upper unicode_upper s) = upper unicode_upper s.
Proof.
  unfold upper. induction 1 as [|c s Hc _ (Hlen & Hall & Hidem)].
  - repeat split. constructor.
  - destruct (upper_char_ascii unicode_upper c Hc) as (d & Hd & Hsmall).
    cbn [flat_map]. rewrite Hd. cbn [app flat_map List.length].
    rewrite (upper_char_no_small unicode_upper d Hsmall), Hlen, Hidem.
    repeat split. now constructor.
Qed.

(** *** The properties above on sample inputs *)

Ltac find_in_trace := repeat first [left; reflexivity | right].

Lemma lookup_only_sees_well_formed_vin_witness :
  In (Lookup Sample.VIN)
    (events (Sample.decode Sample.accord Sample.VIN (lit "bob")))
  /\ Sample.VIN = Sample.VIN /\ well_formed_vin Sample.VIN.
Proof.
  assert (Hin : In (Lookup Sample.VIN)
                  (events (Sample.decode Sample.accord Sample.VIN (lit "bob"))))
    by (vm_compute; find_in_trace).
  split; [exact Hin|].
  exact (lookup_only_sees_well_formed_vin
           Sample.capitalize Sample.car_img_file (Sample.answers Sample.accord)
           Sample.VIN (lit "bob") Sample.VIN Hin).
Defined.

Lemma main_looks_up_only_the_normalised_well_formed_vin_witness :
  In (Lookup Sample.VIN)
    (events (Sample.page Sample.accord (lit "bob")
               (lit " 1hgcm82633a004352 ") true))
  /\ true = true
  /\ Sample.VIN
     = upper Sample.unicode_upper (strip (lit " 1hgcm82633a004352 "))
  /\ well_formed_vin Sample.VIN.
Proof.
  assert (Hin : In (Lookup Sample.VIN)
                  (events (Sample.page Sample.accord (lit "bob")
                             (lit " 1hgcm82633a004352 ") true)))
    by (vm_compute; find_in_trace).
  split; [exact Hin|].
  exact (proj2 (main_looks_up_only_the_normalised_well_formed_vin
                  Sample.capitalize Sample.unicode_upper
                  Sample.logo_img_file Sample.car_img_file
                  (Sample.answers Sample.accord)
                  (lit "bob") (lit " 1hgcm82633a004352 ") true)
               Sample.VIN Hin).
Defined.

Lemma strip_takes_exactly_the_surrounding_white_space_witness :
  strip (lit " ab ") = ord "a" :: lit "b" /\ isspace (ord "a") = false.
Proof.
  assert (Hstrip : strip (lit " ab ") = ord "a" :: lit "b") by reflexivity.
  split; [exact Hstrip|].
  exact (proj1 (proj2 (strip_takes_exactly_the_surrounding_white_space
                         (lit " ab ")))
               (ord "a") (lit "b") Hstrip).
Defined.



Lemma upper_on_ascii_field_witness :
  Forall (fun c => c < 128) (lit "a1b")
  /\ List.length (upper Sample.unicode_upper (lit "a1b"))
     = List.length (lit "a1b").
Proof.
  assert (Hascii : Forall (fun c => c < 128) (lit "a1b")).
  { constructor; [reflexivity|]. constructor; [reflexivity|].
    constructor; [reflexivity | constructor]. }
  split; [exact Hascii|].
  exact (proj1 (upper_on_ascii_field Sample.unicode_upper (lit "a1b") Hascii)).
Defined.
